(** * fluentlogger: request and failure logging middleware

    A shallow embedding of [fluentlogger/fluentlogger.go]: the constructor
    [New] and the two handlers built by the methods [Logger] and
    [PanicLogger] of the type [Logger], with the properties of the handlers
    that the specification states.

    The Go code talks to four collaborators it does not implement: the
    monotonic clock ([time]), the collector client ([fluent]), the error
    printer ([tracerr]) and the goroutine stack ([runtime/debug]).  They
    are gathered in the interface [Externals]; every theorem is proved for
    all implementations of it and for all downstream handlers. *)

From Stdlib Require Import ZArith String List Lia.
From stdpp Require Import base option gmap strings list.

Local Open Scope string_scope.
Local Open Scope list_scope.
Local Open Scope Z_scope.

(** ** Go values *)

(** A non-nil value of Go's [error] interface.  The dynamic type behind the
    interface is not visible to the middleware; the two constructors keep
    apart an ordinary handled error and one made from a recovered runtime
    panic.  A nil [error] is [None : option error]. *)
Inductive error : Type :=
  | Errorf (msg : string)
  | Recovered (msg : string).

(** The values stored in a [map[string]interface{}] by this package. *)
Inductive Value : Type :=
  | VString (s : string)
  | VInt (n : Z)
  | VInt64 (n : Z).

Global Instance error_eq_dec : EqDecision error.
Proof. solve_decision. Defined.

Global Instance Value_eq_dec : EqDecision Value.
Proof. solve_decision. Defined.

(** ** 64-bit arithmetic of package [time] *)

Module time.

Definition wrap64 (z : Z) : Z := (z + 2 ^ 63) mod 2 ^ 64 - 2 ^ 63.

Definition maxDuration : Z := 2 ^ 63 - 1.
Definition minDuration : Z := - 2 ^ 63.

(** [subMono t u]: the difference of two monotonic readings as a
    [Duration], saturating where [t - u] leaves the int64 range. *)
Definition subMono (t u : Z) : Z :=
  let d := wrap64 (t - u) in
  if (d <? 0) && (u <? t) then maxDuration
  else if (0 <? d) && (t <? u) then minDuration
  else d.

(** [Duration.Milliseconds]: [int64(d) / 1e6], Go's truncating division. *)
Definition Milliseconds (d : Z) : Z := Z.quot d 1000000.

End time.

(** ** Records of the package and of its collaborators *)

Record LoggerConfig := {
  Enabled : bool;
  Host : string;
  Port : Z;
  Tag : string
}.

(** [fluent.Config], with the two fields [New] fills in. *)
Record FluentConfig := {
  FluentHost : string;
  FluentPort : Z
}.

(** The part of [fiber.Ctx] the handlers read: the request line, the
    peer address, the request headers, and the response being built. *)
Record Ctx := {
  Method : string;
  Path : string;
  IP : string;
  Headers : gmap string string;
  StatusCode : Z;
  Body : list Byte.byte
}.

(** [c.Get(key)]: the request header, or the empty string. *)
Definition Get (c : Ctx) (key : string) : string :=
  default "" (Headers c !! key).

Definition StatusInternalServerError : Z := 500.

(** A call made to the collector client or to the local printer, with
    what the call returned. *)
Inductive Call : Type :=
  | CallNew (cfg : FluentConfig)
  | CallPost (tag : string) (data : gmap string Value) (res : option error)
  | CallPrintSource (e : error).

(** ** The external collaborators *)

(** [X] is the state of everything outside the process image (clock,
    network, collector connection, standard output); [F] is the client
    handle, a pointer to [fluent.Fluent]. *)
Record Externals (X F : Type) := {
  (** monotonic reading of [time.Now()], in nanoseconds; it is the
      reading [time.Since] subtracts *)
  mono_now : X -> Z;
  (** [fluent.New(cfg)] *)
  fluent_New : FluentConfig -> X -> (F + error) * X;
  (** [client.Post(tag, data)] *)
  fluent_Post : F -> string -> gmap string Value -> X -> option error * X;
  (** [tracerr.SprintSource(err)] *)
  tracerr_SprintSource : error -> X -> string * X;
  (** [tracerr.PrintSource(err)] *)
  tracerr_PrintSource : error -> X -> X;
  (** [string(debug.Stack())] *)
  debug_Stack : X -> string
}.
Arguments mono_now {X F} _ _.
Arguments fluent_New {X F} _ _ _.
Arguments fluent_Post {X F} _ _ _ _ _.
Arguments tracerr_SprintSource {X F} _ _ _.
Arguments tracerr_PrintSource {X F} _ _ _.
Arguments debug_Stack {X F} _ _.

(** The world a handler runs in: the outside state and the log of the
    calls made so far to the collector client and to the printer. *)
Record World (X : Type) := mkWorld {
  ext : X;
  calls : list Call
}.
Arguments mkWorld {X} _ _.
Arguments ext {X} _.
Arguments calls {X} _.

(** [Logger]: the client handle and the base tag. *)
Record Logger (F : Type) := mkLogger {
  client : F;
  tag : string
}.
Arguments mkLogger {F} _ _.
Arguments client {F} _.
Arguments tag {F} _.

(** ** State passing *)

Definition M (X A : Type) : Type := World X -> A * World X.

Definition ret {X A} (a : A) : M X A := fun w => (a, w).

Definition bind {X A B} (m : M X A) (k : A -> M X B) : M X B :=
  fun w => let (a, w') := m w in k a w'.

Declare Scope go_scope.
Delimit Scope go_scope with go.
Notation "x <- m ;; k" := (bind m (fun x => k))
  (at level 100, m at next level, right associativity) : go_scope.
Notation "m ;;; k" := (bind m (fun _ => k))
  (at level 100, right associativity) : go_scope.

(** [fiber.Handler], a function from a context pointer to [error].  The
    context is mutated in place in Go; here it is passed in and handed
    back. *)
Definition Handler (X : Type) : Type := Ctx -> M X (option error * Ctx).

Section Primitives.
Context {X F : Type} (E : Externals X F).

(** [time.Now()]: of the value returned, the monotonic reading is kept. *)
Definition time_Now : M X Z :=
  fun w => (mono_now E (ext w), w).

(** [time.Since(start)]: the clock is read again and [start] subtracted. *)
Definition time_Since (start : Z) : M X Z :=
  fun w => (time.subMono (mono_now E (ext w)) start, w).

(** The calls below go to the collaborators and are entered in the log. *)
Definition fluentNew (cfg : FluentConfig) : M X (F + error) :=
  fun w =>
    let (r, x) := fluent_New E cfg (ext w) in
    (r, mkWorld x (calls w ++ [CallNew cfg])).

Definition Post (f : F) (t : string) (data : gmap string Value)
  : M X (option error) :=
  fun w =>
    let (r, x) := fluent_Post E f t data (ext w) in
    (r, mkWorld x (calls w ++ [CallPost t data r])).

Definition SprintSource (e : error) : M X string :=
  fun w =>
    let (s, x) := tracerr_SprintSource E e (ext w) in
    (s, mkWorld x (calls w)).

Definition PrintSource (e : error) : M X unit :=
  fun w =>
    (tt, mkWorld (tracerr_PrintSource E e (ext w))
                 (calls w ++ [CallPrintSource e])).

Definition Stack : M X string :=
  fun w => (debug_Stack E (ext w), w).

End Primitives.

(** ** The package *)

Section Package.
Context {X F : Type} (E : Externals X F).
Local Open Scope go_scope.

(** [func New(config LoggerConfig)], returning a [Logger] pointer and an
    [error] *)
Definition New (config : LoggerConfig)
  : M X (option (Logger F) * option error) :=
  if negb (Enabled config) then
    ret (None, Some (Errorf "middleware disabled"))
  else
    r <- fluentNew E {| FluentHost := Host config;
                        FluentPort := Port config |} ;;
    match r with
    | inr err => ret (None, Some err)
    | inl fluentLogger =>
        ret (Some {| client := fluentLogger; tag := Tag config |}, None)
    end.

(** The map literal of [Logger], built from the completed response. *)
Definition requestLogData (c : Ctx) (latency : Z) : gmap string Value :=
  <["response_size" := VInt (Z.of_nat (length (Body c)))]>
  (<["user_agent" := VString (Get c "User-Agent")]>
  (<["client_ip" := VString (IP c)]>
  (<["latency_ms" := VInt64 (time.Milliseconds latency)]>
  (<["status" := VInt (StatusCode c)]>
  (<["path" := VString (Path c)]>
  (<["method" := VString (Method c)]> ∅)))))).

(** The method [Logger() fiber.Handler] of [Logger]; [next] is the rest
    of the chain, run by [c.Next()]. *)
Definition Logger_Logger (l : Logger F) (next : Handler X) : Handler X :=
  fun c =>
    start <- time_Now E ;;
    r <- next c ;;
    let (err, c) := r in
    latency <- time_Since E start ;;
    let logData := requestLogData c latency in
    logData <- match err with
               | Some e =>
                   s <- SprintSource E e ;;
                   ret (<["error" := VString s]> logData)
               | None => ret logData
               end ;;
    perr <- Post E (client l) (tag l) logData ;;
    (match perr with
     | Some e => PrintSource E e
     | None => ret tt
     end) ;;;
    ret (err, c).

(** The map literal of [PanicLogger]. *)
Definition panicLogData (c : Ctx) : gmap string Value :=
  <["user_agent" := VString (Get c "User-Agent")]>
  (<["client_ip" := VString (IP c)]>
  (<["path" := VString (Path c)]>
  (<["method" := VString (Method c)]> ∅))).

(** The method [PanicLogger() fiber.Handler] of [Logger]. *)
Definition Logger_PanicLogger (l : Logger F) (next : Handler X) : Handler X :=
  fun c =>
    r <- next c ;;
    let (err, c) := r in
    (if bool_decide (StatusCode c = StatusInternalServerError) then
       let logData := panicLogData c in
       logData <- match err with
                  | Some e =>
                      s <- SprintSource E e ;;
                      ret (<["error" := VString s]> logData)
                  | None => ret logData
                  end ;;
       logData <- match err with
                  | Some _ =>
                      st <- Stack E ;;
                      ret (<["stacktrace" := VString st]> logData)
                  | None => ret logData
                  end ;;
       perr <- Post E (client l) (tag l +:+ ".panic") logData ;;
       match perr with
       | Some e => PrintSource E e
       | None => ret tt
       end
     else ret tt) ;;;
    ret (err, c).

End Package.

(** ** Reading the call log *)

(** The records handed to [client.Post], oldest first, with their tags. *)
Definition posted (cs : list Call) : list (string * gmap string Value) :=
  omap (fun k => match k with
                 | CallPost t d _ => Some (t, d)
                 | _ => None
                 end) cs.

(** The connections [fluent.New] was asked to open. *)
Definition dialled (cs : list Call) : list FluentConfig :=
  omap (fun k => match k with
                 | CallNew cfg => Some cfg
                 | _ => None
                 end) cs.

(** The [latency_ms] entry of the record posted last. *)
Definition last_latency_ms (cs : list Call) : option Value :=
  match last (posted cs) with
  | Some (_, d) => d !! "latency_ms"
  | None => None
  end.

(** ** A simulated environment

    A clock in nanoseconds and a collector that is reachable or not.  It
    is used to run the handlers on concrete requests. *)

Module Sim.

Record state := mk { clock : Z; up : bool }.

Definition tick (ns : Z) (x : state) : state :=
  {| clock := clock x + ns; up := up x |}.

Definition render (e : error) : string :=
  match e with
  | Errorf m => m
  | Recovered m => "panic: " +:+ m
  end.

Definition env : Externals state FluentConfig := {|
  mono_now := clock;
  fluent_New := fun cfg x =>
    if up x then (inl cfg, tick 3000000 x)
    else (inr (Errorf "connection refused"), tick 3000000 x);
  fluent_Post := fun _ _ _ x =>
    if up x then (None, tick 2000000 x)
    else (Some (Errorf "write failed"), tick 5000000 x);
  tracerr_SprintSource := fun e x => (render e, tick 1000000 x);
  tracerr_PrintSource := fun _ x => tick 1000000 x;
  debug_Stack := fun _ => "goroutine 1 [running]:"
|}.

(** An environment with the same clock and a collector that takes a
    second for every call. *)
Definition slow : Externals state FluentConfig := {|
  mono_now := clock;
  fluent_New := fun cfg x => (inl cfg, tick 1000000000 x);
  fluent_Post := fun _ _ _ x => (None, tick 1000000000 x);
  tracerr_SprintSource := fun e x => (render e, tick 1000000000 x);
  tracerr_PrintSource := fun _ x => tick 1000000000 x;
  debug_Stack := fun _ => "goroutine 1 [running]:"
|}.

Definition world (up : bool) : World state :=
  mkWorld {| clock := 1000; up := up |} [].

Definition request (m p : string) : Ctx := {|
  Method := m;
  Path := p;
  IP := "10.0.0.5";
  Headers := {[ "User-Agent" := "curl/8.0" ]};
  StatusCode := 200;
  Body := []
|}.

Definition respond (status : Z) (body : list Byte.byte) (c : Ctx) : Ctx := {|
  Method := Method c;
  Path := Path c;
  IP := IP c;
  Headers := Headers c;
  StatusCode := status;
  Body := body
|}.

(** A downstream handler that answers after [ns] nanoseconds. *)
Definition answer (ns status : Z) (body : list Byte.byte) (err : option error)
  : Handler state :=
  fun c w =>
    ((err, respond status body c), mkWorld (tick ns (ext w)) (calls w)).

Definition logger : Logger FluentConfig :=
  {| client := {| FluentHost := "127.0.0.1"; FluentPort := 24224 |};
     tag := "app" |}.

Definition health : Handler state :=
  answer 12000000 200 [Byte.x6f; Byte.x6b] None.

Definition orders : Handler state :=
  answer 7500000 500 [] (Some (Errorf "db timeout")).

Definition crashed : Handler state :=
  answer 7500000 500 [] (Some (Recovered "index out of range")).

Definition bare500 : Handler state :=
  answer 7500000 500 [] None.

Definition unavailable : Handler state :=
  answer 7500000 503 [] (Some (Errorf "upstream down")).

Definition disabled : LoggerConfig :=
  {| Enabled := false; Host := "127.0.0.1"; Port := 24224; Tag := "app" |}.

Definition enabled : LoggerConfig :=
  {| Enabled := true; Host := "127.0.0.1"; Port := 24224; Tag := "app" |}.

Definition get_health : Ctx := request "GET" "/health".
Definition post_orders : Ctx := request "POST" "/orders".

(** The record of [GET /health], answered with 200 and two bytes after
    12 ms. *)
Definition health_record : gmap string Value :=
  requestLogData (respond 200 [Byte.x6f; Byte.x6b] get_health) 12000000.

End Sim.

(** The calls a handler makes after a send that returned [pr]. *)
Definition report (pr : option error) : list Call :=
  match pr with
  | Some e => [CallPrintSource e]
  | None => []
  end.

(** The seven keys of the request record and the four of the failure
    record. *)
Definition requestKeys : gset string :=
  {[ "method"; "path"; "status"; "latency_ms"; "client_ip"; "user_agent";
     "response_size" ]}.

Definition panicKeys : gset string :=
  {[ "method"; "path"; "client_ip"; "user_agent" ]}.

(** * Properties *)

(** ** The call log *)

Lemma posted_app (a b : list Call) : posted (a ++ b) = posted a ++ posted b.
Proof. unfold posted. apply omap_app. Qed.

Lemma posted_report (pr : option error) : posted (report pr) = [].
Proof. destruct pr; reflexivity. Qed.

Lemma posted_own (cs : list Call) t d pr :
  posted (cs ++ CallPost t d pr :: report pr) = posted cs ++ [(t, d)].
Proof.
  rewrite posted_app. f_equal.
  change (CallPost t d pr :: report pr) with ([CallPost t d pr] ++ report pr).
  rewrite posted_app, posted_report. reflexivity.
Qed.

Lemma dialled_app (a b : list Call) : dialled (a ++ b) = dialled a ++ dialled b.
Proof. unfold dialled. apply omap_app. Qed.

(** ** What the two handlers compute *)

Ltac close_run pr :=
  cbn; exists pr; eexists; rewrite <- ?app_assoc; reflexivity.

Section Runs.
Context {X F : Type} (E : Externals X F).
Variables (l : Logger F) (next : Handler X).

(** [Logger]: the downstream result is handed back, and the world the
    downstream handler left is extended by one send and, if that send
    failed, one print. *)
Lemma Logger_Logger_run (c : Ctx) (w : World X) err c' w' :
  next c w = ((err, c'), w') ->
  let latency := time.subMono (mono_now E (ext w')) (mono_now E (ext w)) in
  let data :=
    match err with
    | Some e =>
        <["error" := VString (tracerr_SprintSource E e (ext w')).1]>
          (requestLogData c' latency)
    | None => requestLogData c' latency
    end in
  exists pr x,
    Logger_Logger E l next c w =
      ((err, c'),
       mkWorld x (calls w' ++ CallPost (tag l) data pr :: report pr)).
Proof.
  intros Hn latency data. subst data latency.
  unfold Logger_Logger, bind, time_Now, time_Since, ret. cbn. rewrite Hn. cbn.
  destruct err as [e|]; cbn.
  - unfold SprintSource, Post. cbn.
    destruct (tracerr_SprintSource E e (ext w')) as [s x1]. cbn.
    match goal with |- context [fluent_Post E ?f ?t ?d ?x] =>
      destruct (fluent_Post E f t d x) as [pr x2] end.
    destruct pr as [pe|]; [close_run (Some pe) | close_run (@None error)].
  - unfold Post. cbn.
    match goal with |- context [fluent_Post E ?f ?t ?d ?x] =>
      destruct (fluent_Post E f t d x) as [pr x2] end.
    destruct pr as [pe|]; [close_run (Some pe) | close_run (@None error)].
Qed.

(** [PanicLogger] on a response whose status is 500. *)
Lemma Logger_PanicLogger_run_500 (c : Ctx) (w : World X) err c' w' :
  next c w = ((err, c'), w') ->
  StatusCode c' = StatusInternalServerError ->
  let data :=
    match err with
    | Some e =>
        let sx := tracerr_SprintSource E e (ext w') in
        <["stacktrace" := VString (debug_Stack E sx.2)]>
          (<["error" := VString sx.1]> (panicLogData c'))
    | None => panicLogData c'
    end in
  exists pr x,
    Logger_PanicLogger E l next c w =
      ((err, c'),
       mkWorld x (calls w' ++
                  CallPost (tag l +:+ ".panic") data pr :: report pr)).
Proof.
  intros Hn Hst data. subst data.
  unfold Logger_PanicLogger, bind, ret. rewrite Hn.
  rewrite bool_decide_eq_true_2 by assumption.
  destruct err as [e|]; cbn.
  - unfold SprintSource, Stack, Post. cbn.
    destruct (tracerr_SprintSource E e (ext w')) as [s x1]. cbn.
    match goal with |- context [fluent_Post E ?f ?t ?d ?x] =>
      destruct (fluent_Post E f t d x) as [pr x2] end.
    destruct pr as [pe|]; [close_run (Some pe) | close_run (@None error)].
  - unfold Post. cbn.
    match goal with |- context [fluent_Post E ?f ?t ?d ?x] =>
      destruct (fluent_Post E f t d x) as [pr x2] end.
    destruct pr as [pe|]; [close_run (Some pe) | close_run (@None error)].
Qed.

(** [PanicLogger] on any other status: nothing but the downstream
    handler runs. *)
Lemma Logger_PanicLogger_run_other (c : Ctx) (w : World X) :
  StatusCode (next c w).1.2 <> StatusInternalServerError ->
  Logger_PanicLogger E l next c w = next c w.
Proof.
  intros Hst. unfold Logger_PanicLogger, bind, ret.
  destruct (next c w) as [[err c'] w'] eqn:Hn. cbn in Hst.
  rewrite bool_decide_eq_false_2 by assumption. reflexivity.
Qed.

End Runs.

(** ** The monotonic difference *)

Lemma wrap64_small (z : Z) : - 2 ^ 63 <= z < 2 ^ 63 -> time.wrap64 z = z.
Proof.
  intros Hz. unfold time.wrap64.
  rewrite Z.mod_small by lia. lia.
Qed.

Lemma wrap64_range (z : Z) : - 2 ^ 63 <= time.wrap64 z < 2 ^ 63.
Proof.
  unfold time.wrap64.
  pose proof (Z.mod_pos_bound (z + 2 ^ 63) (2 ^ 64) ltac:(lia)). lia.
Qed.

(** A later reading minus an earlier one is never negative, saturation
    included. *)
Lemma subMono_nonneg (t u : Z) : u <= t -> 0 <= time.subMono t u.
Proof.
  intros Hut. unfold time.subMono.
  destruct (Z.ltb_spec (time.wrap64 (t - u)) 0) as [Hd|Hd]; cbn.
  - destruct (Z.ltb_spec u t) as [Hlt|Hge]; cbn.
    + unfold time.maxDuration. lia.
    + assert (t = u) by lia. subst t.
      rewrite Z.sub_diag, wrap64_small in Hd by lia. lia.
  - destruct (Z.ltb_spec 0 (time.wrap64 (t - u))); cbn; [|lia].
    destruct (Z.ltb_spec t u); cbn; lia.
Qed.

(** Inside the int64 range the difference is exact. *)
Lemma subMono_exact (t u : Z) :
  0 <= u <= t -> t <= time.maxDuration -> time.subMono t u = t - u.
Proof.
  unfold time.maxDuration. intros Hut Ht. unfold time.subMono.
  rewrite wrap64_small by lia.
  destruct (Z.ltb_spec (t - u) 0); cbn; [lia|].
  destruct (Z.ltb_spec 0 (t - u)); cbn; [|reflexivity].
  destruct (Z.ltb_spec t u); cbn; [lia|reflexivity].
Qed.

Lemma Milliseconds_nonneg (d : Z) : 0 <= d -> 0 <= time.Milliseconds d.
Proof. intros Hd. unfold time.Milliseconds. apply Z.quot_pos; lia. Qed.

(** ** The records *)

Lemma dom_requestLogData (c : Ctx) (latency : Z) :
  dom (requestLogData c latency) = requestKeys.
Proof.
  unfold requestLogData, requestKeys.
  rewrite !dom_insert_L, dom_empty_L. set_solver.
Qed.

Lemma dom_panicLogData (c : Ctx) : dom (panicLogData c) = panicKeys.
Proof.
  unfold panicLogData, panicKeys.
  rewrite !dom_insert_L, dom_empty_L. set_solver.
Qed.

Ltac fresh_key :=
  rewrite ?not_elem_of_union, ?not_elem_of_singleton;
  repeat split; discriminate.

Lemma error_not_requestKey : "error" ∉ requestKeys.
Proof. unfold requestKeys. fresh_key. Qed.

Lemma error_not_panicKey : "error" ∉ panicKeys.
Proof. unfold panicKeys. fresh_key. Qed.

Lemma stacktrace_not_panicKey : "stacktrace" ∉ panicKeys.
Proof. unfold panicKeys. fresh_key. Qed.

Lemma no_own_call (cs rest : list Call) (k : Call) : cs ++ k :: rest <> cs.
Proof.
  intros H. rewrite <- (app_nil_r cs) in H at 2.
  apply app_inv_head in H. discriminate.
Qed.

(** * The claims *)

Section Claims.
Context {X F : Type}.


(** C3.  The handler returned by [Logger] hands exactly one record to the
    collector client, under the base tag, after the downstream handler
    returned, whether that handler returned an error or nil. *)
Theorem Logger_sends_one (E : Externals X F) (l : Logger F)
    (next : Handler X) (c : Ctx) (w : World X) :
  exists data,
    posted (calls (Logger_Logger E l next c w).2) =
    posted (calls (next c w).2) ++ [(tag l, data)].
Proof.
  destruct (next c w) as [[err c'] w'] eqn:Hn.
  destruct (Logger_Logger_run E l next c w _ _ _ Hn) as (pr & x & Hrun).
  rewrite Hrun. cbn. eexists. apply posted_own.
Qed.

(** C4.  The record sent by [Logger] has exactly the keys method, path,
    status, latency_ms, client_ip, user_agent and response_size, read
    from the context the downstream handler left, and the key error
    exactly when the downstream handler returned a non-nil error, with
    the rendering of that error as its value. *)
Theorem Logger_record (E : Externals X F) (l : Logger F)
    (next : Handler X) (c : Ctx) (w : World X) :
  exists data,
    posted (calls (Logger_Logger E l next c w).2) =
      posted (calls (next c w).2) ++ [(tag l, data)] /\
    dom data =
      requestKeys ∪ match (next c w).1.1 with
                    | Some _ => {["error"]}
                    | None => ∅
                    end /\
    ("error" ∈ dom data <-> (next c w).1.1 <> None) /\
    data !! "method" = Some (VString (Method (next c w).1.2)) /\
    data !! "path" = Some (VString (Path (next c w).1.2)) /\
    data !! "status" = Some (VInt (StatusCode (next c w).1.2)) /\
    (exists ms, data !! "latency_ms" = Some (VInt64 ms)) /\
    data !! "client_ip" = Some (VString (IP (next c w).1.2)) /\
    data !! "user_agent" = Some (VString (Get (next c w).1.2 "User-Agent")) /\
    data !! "response_size" =
      Some (VInt (Z.of_nat (length (Body (next c w).1.2)))) /\
    data !! "error" =
      (fun e => VString (tracerr_SprintSource E e (ext (next c w).2)).1)
        <$> (next c w).1.1.
Proof.
  destruct (next c w) as [[err c'] w'] eqn:Hn.
  destruct (Logger_Logger_run E l next c w _ _ _ Hn) as (pr & x & Hrun).
  rewrite Hrun. cbn. eexists. split; [apply posted_own|].
  pose proof error_not_requestKey as Hfresh.
  destruct err as [e|]; cbn.
  - rewrite dom_insert_L, dom_requestLogData.
    split; [set_solver|]. split; [split; [discriminate | set_solver]|].
    unfold requestLogData. repeat split; eauto; by simplify_map_eq.
  - rewrite dom_requestLogData.
    split; [set_solver|]. split; [split; [set_solver | congruence]|].
    unfold requestLogData. repeat split; eauto; by simplify_map_eq.
Qed.

(** C5.  With [Enabled] false, [New] returns the error "middleware
    disabled" and no logger, and leaves the world as it was: nothing is
    asked of [fluent.New]. *)
Theorem New_disabled (E : Externals X F) (config : LoggerConfig)
    (w : World X) :
  Enabled config = false ->
  New E config w = ((None, Some (Errorf "middleware disabled")), w) /\
  dialled (calls (New E config w).2) = dialled (calls w).
Proof.
  intros Hoff. unfold New. rewrite Hoff. cbn. split; reflexivity.
Qed.

(** C2.  The handler returned by [PanicLogger] hands exactly one record
    to the collector client, under the tag followed by ".panic", when the
    status the downstream handler left is [StatusInternalServerError],
    and none for any other status. *)
Theorem PanicLogger_sends (E : Externals X F) (l : Logger F)
    (next : Handler X) (c : Ctx) (w : World X) :
  exists data,
    posted (calls (Logger_PanicLogger E l next c w).2) =
    posted (calls (next c w).2) ++
    (if bool_decide (StatusCode (next c w).1.2 = StatusInternalServerError)
     then [(tag l +:+ ".panic", data)]
     else []).
Proof.
  case_bool_decide as Hst.
  - destruct (next c w) as [[err c'] w'] eqn:Hn.
    destruct (Logger_PanicLogger_run_500 E l next c w _ _ _ Hn Hst)
      as (pr & x & Hrun).
    rewrite Hrun. cbn. eexists. apply posted_own.
  - exists ∅. rewrite Logger_PanicLogger_run_other by exact Hst.
    symmetry. apply app_nil_r.
Qed.

(** C6.  When the send made by either wrapping operation fails with
    [pe], the handler still hands back what the downstream handler
    produced, and the only thing done with [pe] is one call of
    [tracerr.PrintSource]. *)
Theorem send_failure_swallowed (E : Externals X F) (l : Logger F)
    (h : Handler X -> Handler X) (next : Handler X) (c : Ctx)
    (w : World X) (t : string) (d : gmap string Value) (pe : error)
    (rest : list Call) :
  h = Logger_Logger E l \/ h = Logger_PanicLogger E l ->
  calls (h next c w).2 =
    calls (next c w).2 ++ CallPost t d (Some pe) :: rest ->
  (h next c w).1 = (next c w).1 /\ rest = [CallPrintSource pe].
Proof.
  intros Hh Hsend.
  destruct (next c w) as [[err c'] w'] eqn:Hn.
  assert (Hown : h next c w = ((err, c'), w') \/
                 exists t' d' pr x,
                   h next c w =
                     ((err, c'),
                      mkWorld x (calls w' ++ CallPost t' d' pr :: report pr))).
  { destruct Hh as [-> | ->].
    - right.
      destruct (Logger_Logger_run E l next c w _ _ _ Hn) as (pr & x & Hrun).
      eauto 6.
    - destruct (decide (StatusCode c' = StatusInternalServerError))
        as [Hst|Hst].
      + right.
        destruct (Logger_PanicLogger_run_500 E l next c w _ _ _ Hn Hst)
          as (pr & x & Hrun).
        eauto 6.
      + left. rewrite Logger_PanicLogger_run_other, Hn; [reflexivity|].
        rewrite Hn. exact Hst. }
  destruct Hown as [Hrun | (t' & d' & pr & x & Hrun)]; rewrite Hrun in *.
  - cbn in Hsend. symmetry in Hsend. apply no_own_call in Hsend. contradiction.
  - cbn in Hsend. apply app_inv_head in Hsend.
    injection Hsend as _ _ Hpr Hrest. subst pr rest. split; reflexivity.
Qed.

(** C7.  On the error-status path of [PanicLogger] the record has the key
    stacktrace exactly when the downstream handler returned a non-nil
    error, and the key error under the same condition, whatever kind of
    error value it is. *)
Theorem PanicLogger_stacktrace (E : Externals X F) (l : Logger F)
    (next : Handler X) (c : Ctx) (w : World X) :
  StatusCode (next c w).1.2 = StatusInternalServerError ->
  exists data,
    posted (calls (Logger_PanicLogger E l next c w).2) =
      posted (calls (next c w).2) ++ [(tag l +:+ ".panic", data)] /\
    ("stacktrace" ∈ dom data <-> (next c w).1.1 <> None) /\
    ("error" ∈ dom data <-> (next c w).1.1 <> None).
Proof.
  intros Hst.
  destruct (next c w) as [[err c'] w'] eqn:Hn. cbn in Hst.
  destruct (Logger_PanicLogger_run_500 E l next c w _ _ _ Hn Hst)
    as (pr & x & Hrun).
  rewrite Hrun. cbn. eexists. split; [apply posted_own|].
  pose proof error_not_panicKey as He.
  pose proof stacktrace_not_panicKey as Hs.
  destruct err as [e|]; cbn.
  - rewrite !dom_insert_L, dom_panicLogData.
    split; (split; [discriminate | set_solver]).
  - rewrite dom_panicLogData.
    split; (split; [contradiction | congruence]).
Qed.

(** C8.  With a clock that does not run backwards over the downstream
    call, and readings in the int64 range, the latency_ms of the record
    sent by [Logger] is not negative and is the difference of the reading
    taken after the downstream handler returned and the one taken before
    it was called, in whole milliseconds. *)
Theorem Logger_latency (E : Externals X F) (l : Logger F)
    (next : Handler X) (c : Ctx) (w : World X) (t0 t1 : Z) :
  mono_now E (ext w) = t0 ->
  mono_now E (ext (next c w).2) = t1 ->
  0 <= t0 <= t1 ->
  t1 <= time.maxDuration ->
  exists ms,
    last_latency_ms (calls (Logger_Logger E l next c w).2) = Some (VInt64 ms) /\
    0 <= ms /\
    ms = (t1 - t0) `quot` 1000000.
Proof.
  intros H0 H1 Hmono Hmax.
  destruct (next c w) as [[err c'] w'] eqn:Hn. cbn in H1.
  destruct (Logger_Logger_run E l next c w _ _ _ Hn) as (pr & x & Hrun).
  rewrite Hrun. cbn. unfold last_latency_ms.
  rewrite posted_own, last_snoc, H0, H1, subMono_exact by assumption.
  exists ((t1 - t0) `quot` 1000000). split; [|split].
  - destruct err; unfold requestLogData; by simplify_map_eq.
  - apply (Milliseconds_nonneg (t1 - t0)). lia.
  - reflexivity.
Qed.

(** C9.  When the status is [StatusInternalServerError] and the
    downstream handler returned nil, [PanicLogger] still sends a record
    under the ".panic" tag, with exactly the keys method, path, client_ip
    and user_agent: no error key and no stacktrace key. *)
Theorem PanicLogger_nil_error (E : Externals X F) (l : Logger F)
    (next : Handler X) (c : Ctx) (w : World X) :
  StatusCode (next c w).1.2 = StatusInternalServerError ->
  (next c w).1.1 = None ->
  exists data,
    posted (calls (Logger_PanicLogger E l next c w).2) =
      posted (calls (next c w).2) ++ [(tag l +:+ ".panic", data)] /\
    data = panicLogData (next c w).1.2 /\
    dom data = panicKeys /\
    data !! "error" = None /\
    data !! "stacktrace" = None.
Proof.
  intros Hst Hnil.
  destruct (next c w) as [[err c'] w'] eqn:Hn. cbn in Hst, Hnil. subst err.
  destruct (Logger_PanicLogger_run_500 E l next c w _ _ _ Hn Hst)
    as (pr & x & Hrun).
  rewrite Hrun. cbn. eexists. split; [apply posted_own|].
  split; [reflexivity|]. split; [apply dom_panicLogData|].
  split; apply not_elem_of_dom; rewrite dom_panicLogData.
  - apply error_not_panicKey.
  - apply stacktrace_not_panicKey.
Qed.

(** C10.  The latency_ms of the record sent by [Logger] is fixed by the
    clock on entry and the clock in the world the downstream handler
    left: it is computed before the record is built and sent, so an
    environment with the same clock whose rendering, sending and
    printing behave differently yields the same latency_ms. *)
Theorem Logger_latency_window (E E' : Externals X F) (l : Logger F)
    (next : Handler X) (c : Ctx) (w : World X) :
  (forall x, mono_now E' x = mono_now E x) ->
  last_latency_ms (calls (Logger_Logger E l next c w).2) =
    Some (VInt64 (time.Milliseconds
                    (time.subMono (mono_now E (ext (next c w).2))
                                  (mono_now E (ext w))))) /\
  last_latency_ms (calls (Logger_Logger E' l next c w).2) =
    last_latency_ms (calls (Logger_Logger E l next c w).2).
Proof.
  intros Hclock.
  destruct (next c w) as [[err c'] w'] eqn:Hn.
  destruct (Logger_Logger_run E l next c w _ _ _ Hn) as (pr & x & Hrun).
  destruct (Logger_Logger_run E' l next c w _ _ _ Hn) as (pr' & x' & Hrun').
  rewrite Hrun, Hrun'. cbn. unfold last_latency_ms.
  rewrite !posted_own, !last_snoc, !Hclock.
  split; destruct err; unfold requestLogData; by simplify_map_eq.
Qed.

End Claims.

(** * The handlers on concrete requests *)

(** [GET /health], answered with 200 after 12 ms: one record under the
    base tag, with latency_ms 12 and response_size 2. *)
Example health_logged :
  posted (calls (Logger_Logger Sim.env Sim.logger Sim.health
                   Sim.get_health (Sim.world true)).2) =
  [("app",
    list_to_map
      [("method", VString "GET"); ("path", VString "/health");
       ("status", VInt 200); ("latency_ms", VInt64 12);
       ("client_ip", VString "10.0.0.5"); ("user_agent", VString "curl/8.0");
       ("response_size", VInt 2)])].
Proof. vm_compute. reflexivity. Qed.

(** The same request leaves the failure logger silent. *)
Example health_no_panic_record :
  calls (Logger_PanicLogger Sim.env Sim.logger Sim.health
           Sim.get_health (Sim.world true)).2 = [].
Proof. vm_compute. reflexivity. Qed.

(** [POST /orders], answered with 500 and the error "db timeout", through
    both loggers: a ".panic" record with error and stacktrace, then the
    base-tag record with the error. *)
Example orders_logged :
  posted (calls (Logger_Logger Sim.env Sim.logger
                   (Logger_PanicLogger Sim.env Sim.logger Sim.orders)
                   Sim.post_orders (Sim.world true)).2) =
  [("app.panic",
    list_to_map
      [("method", VString "POST"); ("path", VString "/orders");
       ("client_ip", VString "10.0.0.5"); ("user_agent", VString "curl/8.0");
       ("error", VString "db timeout");
       ("stacktrace", VString "goroutine 1 [running]:")]);
   ("app",
    list_to_map
      [("method", VString "POST"); ("path", VString "/orders");
       ("status", VInt 500); ("latency_ms", VInt64 10);
       ("client_ip", VString "10.0.0.5"); ("user_agent", VString "curl/8.0");
       ("response_size", VInt 0); ("error", VString "db timeout")])].
Proof. vm_compute. reflexivity. Qed.

(** An error recovered from a panic and an ordinary error are logged with
    the same keys. *)
Example crashed_same_keys :
  (fun p => dom p.2) <$>
    posted (calls (Logger_PanicLogger Sim.env Sim.logger Sim.crashed
                     Sim.post_orders (Sim.world true)).2) =
  (fun p => dom p.2) <$>
    posted (calls (Logger_PanicLogger Sim.env Sim.logger Sim.orders
                     Sim.post_orders (Sim.world true)).2).
Proof. vm_compute. reflexivity. Qed.

(** The status compared is 500 alone: a 503 response is not logged by
    [PanicLogger]. *)
Example unavailable_not_logged :
  calls (Logger_PanicLogger Sim.env Sim.logger Sim.unavailable
           Sim.post_orders (Sim.world true)).2 = [].
Proof. vm_compute. reflexivity. Qed.

(** With the collector down the send fails, the failure is printed, and
    the handler result is the downstream one. *)
Example health_collector_down :
  (Logger_Logger Sim.env Sim.logger Sim.health Sim.get_health
     (Sim.world false)).1 =
    (None, Sim.respond 200 [Byte.x6f; Byte.x6b] Sim.get_health) /\
  calls (Logger_Logger Sim.env Sim.logger Sim.health Sim.get_health
           (Sim.world false)).2 =
    [CallPost "app" Sim.health_record (Some (Errorf "write failed"));
     CallPrintSource (Errorf "write failed")].
Proof. split; vm_compute; reflexivity. Qed.

(** The clock keeps running while the record is sent: 14 ms have passed
    when the handler returns, and the record says 12. *)
Example health_clock_after :
  mono_now Sim.env
    (ext (Logger_Logger Sim.env Sim.logger Sim.health Sim.get_health
            (Sim.world true)).2) - 1000 = 14000000 /\
  last_latency_ms
    (calls (Logger_Logger Sim.env Sim.logger Sim.health Sim.get_health
              (Sim.world true)).2) = Some (VInt64 12).
Proof. split; vm_compute; reflexivity. Qed.

(** An enabled configuration asks [fluent.New] for the connection. *)
Example New_enabled_dials :
  dialled (calls (New Sim.env Sim.enabled (Sim.world true)).2) =
  [{| FluentHost := "127.0.0.1"; FluentPort := 24224 |}].
Proof. vm_compute. reflexivity. Qed.

(** * Instances of the conditional theorems *)

Lemma New_disabled_witness :
  Enabled Sim.disabled = false /\
  New Sim.env Sim.disabled (Sim.world true) =
    ((None, Some (Errorf "middleware disabled")), Sim.world true) /\
  dialled (calls (New Sim.env Sim.disabled (Sim.world true)).2) =
    dialled (calls (Sim.world true)).
Proof.
  split; [reflexivity|].
  apply (New_disabled Sim.env Sim.disabled (Sim.world true)). reflexivity.
Defined.

Lemma send_failure_swallowed_witness :
  (Logger_Logger Sim.env Sim.logger = Logger_Logger Sim.env Sim.logger \/
   Logger_Logger Sim.env Sim.logger = Logger_PanicLogger Sim.env Sim.logger) /\
  calls (Logger_Logger Sim.env Sim.logger Sim.health Sim.get_health
           (Sim.world false)).2 =
    calls (Sim.health Sim.get_health (Sim.world false)).2 ++
    CallPost "app" Sim.health_record (Some (Errorf "write failed"))
      :: [CallPrintSource (Errorf "write failed")] /\
  (Logger_Logger Sim.env Sim.logger Sim.health Sim.get_health
     (Sim.world false)).1 =
    (Sim.health Sim.get_health (Sim.world false)).1 /\
  [CallPrintSource (Errorf "write failed")] =
    [CallPrintSource (Errorf "write failed")].
Proof.
  split; [left; reflexivity|].
  split; [vm_compute; reflexivity|].
  apply (send_failure_swallowed Sim.env Sim.logger
           (Logger_Logger Sim.env Sim.logger) Sim.health Sim.get_health
           (Sim.world false) "app" Sim.health_record (Errorf "write failed")
           [CallPrintSource (Errorf "write failed")]).
  - left. reflexivity.
  - vm_compute. reflexivity.
Defined.

Lemma PanicLogger_stacktrace_witness :
  StatusCode (Sim.orders Sim.post_orders (Sim.world true)).1.2 =
    StatusInternalServerError /\
  exists data,
    posted (calls (Logger_PanicLogger Sim.env Sim.logger Sim.orders
                     Sim.post_orders (Sim.world true)).2) =
      posted (calls (Sim.orders Sim.post_orders (Sim.world true)).2) ++
      [("app" +:+ ".panic", data)] /\
    ("stacktrace" ∈ dom data <->
       (Sim.orders Sim.post_orders (Sim.world true)).1.1 <> None) /\
    ("error" ∈ dom data <->
       (Sim.orders Sim.post_orders (Sim.world true)).1.1 <> None).
Proof.
  split; [reflexivity|].
  apply (PanicLogger_stacktrace Sim.env Sim.logger Sim.orders Sim.post_orders
           (Sim.world true)).
  reflexivity.
Defined.

Lemma Logger_latency_witness :
  0 <= 1000 <= 12001000 /\
  12001000 <= time.maxDuration /\
  exists ms,
    last_latency_ms
      (calls (Logger_Logger Sim.env Sim.logger Sim.health Sim.get_health
                (Sim.world true)).2) = Some (VInt64 ms) /\
    0 <= ms /\
    ms = (12001000 - 1000) `quot` 1000000.
Proof.
  split; [lia|]. split; [vm_compute; discriminate|].
  apply (Logger_latency Sim.env Sim.logger Sim.health Sim.get_health
           (Sim.world true) 1000 12001000).
  - reflexivity.
  - reflexivity.
  - lia.
  - vm_compute. discriminate.
Defined.

Lemma PanicLogger_nil_error_witness :
  StatusCode (Sim.bare500 Sim.post_orders (Sim.world true)).1.2 =
    StatusInternalServerError /\
  (Sim.bare500 Sim.post_orders (Sim.world true)).1.1 = None /\
  exists data,
    posted (calls (Logger_PanicLogger Sim.env Sim.logger Sim.bare500
                     Sim.post_orders (Sim.world true)).2) =
      posted (calls (Sim.bare500 Sim.post_orders (Sim.world true)).2) ++
      [("app" +:+ ".panic", data)] /\
    data = panicLogData (Sim.bare500 Sim.post_orders (Sim.world true)).1.2 /\
    dom data = panicKeys /\
    data !! "error" = None /\
    data !! "stacktrace" = None.
Proof.
  split; [reflexivity|]. split; [reflexivity|].
  apply (PanicLogger_nil_error Sim.env Sim.logger Sim.bare500 Sim.post_orders
           (Sim.world true)); reflexivity.
Defined.

Lemma Logger_latency_window_witness :
  (forall x, mono_now Sim.slow x = mono_now Sim.env x) /\
  last_latency_ms
    (calls (Logger_Logger Sim.env Sim.logger Sim.health Sim.get_health
              (Sim.world true)).2) =
    Some (VInt64 (time.Milliseconds
                    (time.subMono
                       (mono_now Sim.env
                          (ext (Sim.health Sim.get_health (Sim.world true)).2))
                       (mono_now Sim.env (ext (Sim.world true)))))) /\
  last_latency_ms
    (calls (Logger_Logger Sim.slow Sim.logger Sim.health Sim.get_health
              (Sim.world true)).2) =
    last_latency_ms
      (calls (Logger_Logger Sim.env Sim.logger Sim.health Sim.get_health
                (Sim.world true)).2).
Proof.
  split; [intros x; reflexivity|].
  apply (Logger_latency_window Sim.env Sim.slow Sim.logger Sim.health
           Sim.get_health (Sim.world true)).
  intros x. reflexivity.
Defined.

(** * Further properties of the package *)

(** ** The calls each handler adds *)

Section OwnCalls.
Context {X F : Type} (E : Externals X F).
Variables (l : Logger F) (next : Handler X).

(** [Logger] keeps the downstream result and appends one send and, after a
    failed send, one print to the log the downstream handler left. *)
Lemma Logger_Logger_calls (c : Ctx) (w : World X) :
  exists data pr,
    (Logger_Logger E l next c w).1 = (next c w).1 /\
    calls (Logger_Logger E l next c w).2 =
      calls (next c w).2 ++ CallPost (tag l) data pr :: report pr.
Proof.
  destruct (next c w) as [[err c'] w'] eqn:Hn.
  destruct (Logger_Logger_run E l next c w _ _ _ Hn) as (pr & x & Hrun).
  rewrite Hrun. cbn. eauto.
Qed.

(** [PanicLogger] does the same under the ".panic" tag when the status is
    500, and appends nothing otherwise. *)
Lemma Logger_PanicLogger_calls (c : Ctx) (w : World X) :
  exists data pr,
    (Logger_PanicLogger E l next c w).1 = (next c w).1 /\
    calls (Logger_PanicLogger E l next c w).2 =
      calls (next c w).2 ++
      (if bool_decide (StatusCode (next c w).1.2 = StatusInternalServerError)
       then CallPost (tag l +:+ ".panic") data pr :: report pr
       else []).
Proof.
  case_bool_decide as Hst.
  - destruct (next c w) as [[err c'] w'] eqn:Hn.
    destruct (Logger_PanicLogger_run_500 E l next c w _ _ _ Hn Hst)
      as (pr & x & Hrun).
    rewrite Hrun. cbn. eauto.
  - exists ∅, None. rewrite Logger_PanicLogger_run_other by exact Hst.
    split; [reflexivity|]. symmetry. apply app_nil_r.
Qed.

End OwnCalls.

Lemma dialled_report (pr : option error) : dialled (report pr) = [].
Proof. destruct pr; reflexivity. Qed.

Lemma dialled_own (cs : list Call) t d pr :
  dialled (cs ++ CallPost t d pr :: report pr) = dialled cs.
Proof.
  rewrite dialled_app. cbn. rewrite dialled_report. apply app_nil_r.
Qed.

(** The ".panic" tag is never the base tag. *)
Lemma panic_tag_fresh (t : string) : t +:+ ".panic" <> t.
Proof.
  induction t as [|a t IH]; [discriminate|].
  cbn. intros H. injection H as H. exact (IH H).
Qed.

(** A [Duration] computed by [subMono] is an int64. *)
Lemma subMono_range (t u : Z) :
  time.minDuration <= time.subMono t u <= time.maxDuration.
Proof.
  unfold time.subMono, time.minDuration, time.maxDuration.
  pose proof (wrap64_range (t - u)).
  destruct ((time.wrap64 (t - u) <? 0) && (u <? t)); [lia|].
  destruct ((0 <? time.wrap64 (t - u)) && (t <? u)); lia.
Qed.

Section Construction.
Context {X F : Type}.

(** [New] returns a logger or an error, never both and never neither, so
    a caller that tests the error alone never uses a nil logger. *)
Theorem New_result_shape (E : Externals X F) (config : LoggerConfig)
    (w : World X) :
  (exists l, (New E config w).1 = (Some l, None)) \/
  (exists e, (New E config w).1 = (None, Some e)).
Proof.
  unfold New. destruct (Enabled config); cbn; [|eauto].
  unfold bind, fluentNew.
  destruct (fluent_New E _ (ext w)) as [[f|e] x]; cbn; eauto.
Qed.

(** An enabled [New] calls [fluent.New] once, with the host and port of
    the configuration, and makes no other call, whether the connection
    succeeds or not. *)
Theorem New_enabled_dials_once (E : Externals X F) (config : LoggerConfig)
    (w : World X) :
  Enabled config = true ->
  calls (New E config w).2 =
    calls w ++ [CallNew {| FluentHost := Host config;
                           FluentPort := Port config |}].
Proof.
  intros Hon. unfold New. rewrite Hon. cbn. unfold bind, fluentNew.
  destruct (fluent_New E _ (ext w)) as [[f|e] x]; reflexivity.
Qed.

(** [New] returns a logger exactly when the configuration is enabled and
    [fluent.New] returned a client; the logger holds that client and the
    tag of the configuration. *)
Theorem New_logger_iff (E : Externals X F) (config : LoggerConfig)
    (w : World X) (l : Logger F) :
  (New E config w).1.1 = Some l <->
  Enabled config = true /\
  (fluent_New E {| FluentHost := Host config; FluentPort := Port config |}
     (ext w)).1 = inl (client l) /\
  tag l = Tag config.
Proof.
  unfold New. destruct (Enabled config); cbn.
  - unfold bind, fluentNew.
    destruct (fluent_New E _ (ext w)) as [[f|e] x]; cbn.
    + split.
      * intros H. injection H as <-. auto.
      * intros (_ & Hf & Ht). destruct l as [f' t']. cbn in *. congruence.
    + split; [discriminate|]. intros (_ & Hf & _). discriminate.
  - split; [discriminate|]. intros (Hoff & _). discriminate.
Qed.

(** The error [New] returns is "middleware disabled" for a disabled
    configuration, and otherwise the error of [fluent.New], unchanged. *)
Theorem New_error_origin (E : Externals X F) (config : LoggerConfig)
    (w : World X) (e : error) :
  (New E config w).1.2 = Some e ->
  (Enabled config = false /\ e = Errorf "middleware disabled") \/
  (Enabled config = true /\
   (fluent_New E {| FluentHost := Host config; FluentPort := Port config |}
      (ext w)).1 = inr e).
Proof.
  unfold New. destruct (Enabled config); cbn.
  - unfold bind, fluentNew.
    destruct (fluent_New E _ (ext w)) as [[f|e'] x]; cbn; [discriminate|].
    intros H. injection H as <-. auto.
  - intros H. injection H as <-. auto.
Qed.

(** A logger built by [New] sends under the tag of the configuration: the
    request record under [Tag], the failure record under [Tag] followed by
    ".panic". *)
Theorem New_tag_used (E : Externals X F) (config : LoggerConfig)
    (w0 : World X) (l : Logger F) (next : Handler X) (c : Ctx)
    (w : World X) :
  (New E config w0).1.1 = Some l ->
  (exists data,
     posted (calls (Logger_Logger E l next c w).2) =
       posted (calls (next c w).2) ++ [(Tag config, data)]) /\
  (exists data,
     posted (calls (Logger_PanicLogger E l next c w).2) =
       posted (calls (next c w).2) ++
       (if bool_decide (StatusCode (next c w).1.2 = StatusInternalServerError)
        then [(Tag config +:+ ".panic", data)]
        else [])).
Proof.
  intros Hnew.
  assert (Htag : tag l = Tag config).
  { revert Hnew. unfold New. destruct (Enabled config); cbn; [|discriminate].
    unfold bind, fluentNew.
    destruct (fluent_New E _ (ext w0)) as [[f|e] x]; cbn; [|discriminate].
    intros H. injection H as <-. reflexivity. }
  rewrite <- Htag. split.
  - destruct (Logger_Logger_calls E l next c w) as (d & pr & _ & Hc).
    exists d. rewrite Hc. apply posted_own.
  - destruct (Logger_PanicLogger_calls E l next c w) as (d & pr & _ & Hc).
    exists d. rewrite Hc. case_bool_decide.
    + apply posted_own.
    + rewrite !app_nil_r. reflexivity.
Qed.

End Construction.

Section Handlers.
Context {X F : Type}.

(** When the send made by either wrapping operation returns nil, nothing
    is printed: the send is the last call the handler makes, and the
    downstream result is handed back. *)
Theorem send_success_silent (E : Externals X F) (l : Logger F)
    (h : Handler X -> Handler X) (next : Handler X) (c : Ctx)
    (w : World X) (t : string) (d : gmap string Value) (rest : list Call) :
  h = Logger_Logger E l \/ h = Logger_PanicLogger E l ->
  calls (h next c w).2 = calls (next c w).2 ++ CallPost t d None :: rest ->
  (h next c w).1 = (next c w).1 /\ rest = [].
Proof.
  intros Hh Hsend.
  destruct Hh as [-> | ->].
  - destruct (Logger_Logger_calls E l next c w) as (d' & pr & Hres & Hc).
    rewrite Hc in Hsend. apply app_inv_head in Hsend.
    injection Hsend as _ _ Hpr Hrest. subst pr rest. auto.
  - destruct (Logger_PanicLogger_calls E l next c w) as (d' & pr & Hres & Hc).
    rewrite Hc in Hsend. apply app_inv_head in Hsend.
    case_bool_decide; [|discriminate].
    injection Hsend as _ _ Hpr Hrest. subst pr rest. auto.
Qed.

(** Neither handler opens a connection: the calls to [fluent.New] are
    those the downstream handler left. *)
Theorem handlers_never_dial (E : Externals X F) (l : Logger F)
    (next : Handler X) (c : Ctx) (w : World X) :
  dialled (calls (Logger_Logger E l next c w).2) =
    dialled (calls (next c w).2) /\
  dialled (calls (Logger_PanicLogger E l next c w).2) =
    dialled (calls (next c w).2).
Proof.
  split.
  - destruct (Logger_Logger_calls E l next c w) as (d & pr & _ & Hc).
    rewrite Hc. apply dialled_own.
  - destruct (Logger_PanicLogger_calls E l next c w) as (d & pr & _ & Hc).
    rewrite Hc. case_bool_decide.
    + apply dialled_own.
    + rewrite app_nil_r. reflexivity.
Qed.

(** On a status other than 500 [PanicLogger] is the downstream handler:
    same result, same outside state, same log; the error is not rendered
    and the stack is not read. *)
Theorem PanicLogger_transparent (E : Externals X F) (l : Logger F)
    (next : Handler X) (c : Ctx) (w : World X) :
  StatusCode (next c w).1.2 <> StatusInternalServerError ->
  Logger_PanicLogger E l next c w = next c w.
Proof. apply Logger_PanicLogger_run_other. Qed.

(** On status 500 with a non-nil error [e], the failure record has six
    keys: the four of the request, error with the rendering of [e], and
    stacktrace with the stack read after the rendering. *)
Theorem PanicLogger_error_record (E : Externals X F) (l : Logger F)
    (next : Handler X) (c : Ctx) (w : World X) (e : error) :
  StatusCode (next c w).1.2 = StatusInternalServerError ->
  (next c w).1.1 = Some e ->
  exists data,
    posted (calls (Logger_PanicLogger E l next c w).2) =
      posted (calls (next c w).2) ++ [(tag l +:+ ".panic", data)] /\
    dom data = panicKeys ∪ {[ "error"; "stacktrace" ]} /\
    data !! "method" = Some (VString (Method (next c w).1.2)) /\
    data !! "path" = Some (VString (Path (next c w).1.2)) /\
    data !! "client_ip" = Some (VString (IP (next c w).1.2)) /\
    data !! "user_agent" = Some (VString (Get (next c w).1.2 "User-Agent")) /\
    data !! "error" =
      Some (VString (tracerr_SprintSource E e (ext (next c w).2)).1) /\
    data !! "stacktrace" =
      Some (VString
              (debug_Stack E (tracerr_SprintSource E e (ext (next c w).2)).2)).
Proof.
  intros Hst Herr.
  destruct (next c w) as [[err c'] w'] eqn:Hn. cbn in Hst, Herr. subst err.
  destruct (Logger_PanicLogger_run_500 E l next c w _ _ _ Hn Hst)
    as (pr & x & Hrun).
  rewrite Hrun. cbn. eexists. split; [apply posted_own|].
  split.
  - rewrite !dom_insert_L, dom_panicLogData. set_solver.
  - unfold panicLogData. repeat split; by simplify_map_eq.
Qed.

(** [Logger] around [PanicLogger]: the failure record, if any, is sent
    before the request record, and the downstream result comes back
    through both. *)
Theorem Logger_over_PanicLogger (E : Externals X F) (l1 l2 : Logger F)
    (next : Handler X) (c : Ctx) (w : World X) :
  (Logger_Logger E l1 (Logger_PanicLogger E l2 next) c w).1 = (next c w).1 /\
  exists d1 d2,
    posted (calls (Logger_Logger E l1 (Logger_PanicLogger E l2 next) c w).2) =
      posted (calls (next c w).2) ++
      (if bool_decide (StatusCode (next c w).1.2 = StatusInternalServerError)
       then [(tag l2 +:+ ".panic", d2)]
       else []) ++
      [(tag l1, d1)].
Proof.
  destruct (Logger_Logger_calls E l1 (Logger_PanicLogger E l2 next) c w)
    as (d1 & pr1 & Hres1 & Hc1).
  destruct (Logger_PanicLogger_calls E l2 next c w)
    as (d2 & pr2 & Hres2 & Hc2).
  split; [congruence|].
  exists d1, d2. rewrite Hc1, posted_own, Hc2. case_bool_decide.
  - rewrite posted_own, <- app_assoc. reflexivity.
  - rewrite app_nil_r. reflexivity.
Qed.

(** [PanicLogger] around [Logger]: the request record is sent first, and
    the status tested is the one the downstream handler left. *)
Theorem PanicLogger_over_Logger (E : Externals X F) (l1 l2 : Logger F)
    (next : Handler X) (c : Ctx) (w : World X) :
  (Logger_PanicLogger E l1 (Logger_Logger E l2 next) c w).1 = (next c w).1 /\
  exists d1 d2,
    posted (calls (Logger_PanicLogger E l1 (Logger_Logger E l2 next) c w).2) =
      posted (calls (next c w).2) ++
      [(tag l2, d2)] ++
      (if bool_decide (StatusCode (next c w).1.2 = StatusInternalServerError)
       then [(tag l1 +:+ ".panic", d1)]
       else []).
Proof.
  destruct (Logger_PanicLogger_calls E l1 (Logger_Logger E l2 next) c w)
    as (d1 & pr1 & Hres1 & Hc1).
  destruct (Logger_Logger_calls E l2 next c w) as (d2 & pr2 & Hres2 & Hc2).
  split; [congruence|].
  exists d1, d2. rewrite Hres2 in Hc1. rewrite Hc1, Hc2. clear Hc1.
  case_bool_decide.
  - rewrite posted_own, posted_own, <- app_assoc. reflexivity.
  - rewrite app_nil_r, posted_own. reflexivity.
Qed.

(** With both handlers of one logger stacked, the records under the base
    tag itself grow by exactly one per request, whatever the status: the
    failure record carries another tag. *)
Theorem base_tag_once_when_stacked (E : Externals X F) (l : Logger F)
    (next : Handler X) (c : Ctx) (w : World X) :
  length (filter (fun p => p.1 = tag l)
            (posted (calls (Logger_Logger E l (Logger_PanicLogger E l next)
                              c w).2))) =
  S (length (filter (fun p => p.1 = tag l) (posted (calls (next c w).2)))).
Proof.
  destruct (Logger_Logger_calls E l (Logger_PanicLogger E l next) c w)
    as (d1 & pr1 & _ & Hc1).
  destruct (Logger_PanicLogger_calls E l next c w) as (d2 & pr2 & _ & Hc2).
  rewrite Hc1, posted_own, Hc2, filter_app, length_app.
  rewrite filter_cons_True by reflexivity. cbn.
  case_bool_decide.
  - rewrite posted_own, filter_app, length_app.
    rewrite filter_cons_False by apply panic_tag_fresh. cbn. lia.
  - rewrite app_nil_r. lia.
Qed.

(** The latency_ms recorded is the elapsed time rounded down to whole
    milliseconds: less than a millisecond is lost, and a request served in
    under a millisecond is logged with latency 0. *)
Theorem Logger_latency_truncates (E : Externals X F) (l : Logger F)
    (next : Handler X) (c : Ctx) (w : World X) (t0 t1 : Z) :
  mono_now E (ext w) = t0 ->
  mono_now E (ext (next c w).2) = t1 ->
  0 <= t0 <= t1 ->
  t1 <= time.maxDuration ->
  exists ms,
    last_latency_ms (calls (Logger_Logger E l next c w).2) = Some (VInt64 ms) /\
    ms * 1000000 <= t1 - t0 < ms * 1000000 + 1000000 /\
    (t1 - t0 < 1000000 -> ms = 0).
Proof.
  intros H0 H1 Hmono Hmax.
  destruct (next c w) as [[err c'] w'] eqn:Hn. cbn in H1.
  destruct (Logger_Logger_run E l next c w _ _ _ Hn) as (pr & x & Hrun).
  rewrite Hrun. cbn. unfold last_latency_ms.
  rewrite posted_own, last_snoc, H0, H1, subMono_exact by assumption.
  exists ((t1 - t0) `quot` 1000000). split; [|split].
  - destruct err; unfold requestLogData; by simplify_map_eq.
  - rewrite Z.quot_div_nonneg by lia.
    pose proof (Z.div_mod (t1 - t0) 1000000 ltac:(lia)).
    pose proof (Z.mod_pos_bound (t1 - t0) 1000000 ltac:(lia)). lia.
  - intros Hsub. apply Z.quot_small. lia.
Qed.

(** With nothing assumed of the clock but that it did not run backwards,
    the latency_ms recorded is between 0 and the number of milliseconds in
    the longest [Duration]. *)
Theorem Logger_latency_bounded (E : Externals X F) (l : Logger F)
    (next : Handler X) (c : Ctx) (w : World X) :
  mono_now E (ext w) <= mono_now E (ext (next c w).2) ->
  exists ms,
    last_latency_ms (calls (Logger_Logger E l next c w).2) = Some (VInt64 ms) /\
    0 <= ms <= 9223372036854.
Proof.
  intros Hmono.
  destruct (next c w) as [[err c'] w'] eqn:Hn. cbn in Hmono.
  destruct (Logger_Logger_run E l next c w _ _ _ Hn) as (pr & x & Hrun).
  rewrite Hrun. cbn. unfold last_latency_ms.
  rewrite posted_own, last_snoc.
  eexists. split.
  - destruct err; unfold requestLogData; by simplify_map_eq.
  - pose proof (subMono_nonneg _ _ Hmono) as Hlo.
    pose proof (subMono_range (mono_now E (ext w')) (mono_now E (ext w)))
      as Hhi.
    unfold time.maxDuration in Hhi. unfold time.Milliseconds.
    rewrite Z.quot_div_nonneg by lia. split.
    + apply Z.div_pos; lia.
    + apply Z.lt_succ_r. apply Z.div_lt_upper_bound; lia.
Qed.

End Handlers.

(** ** Instances of the further properties *)

Lemma New_enabled_dials_once_witness :
  Enabled Sim.enabled = true /\
  calls (New Sim.env Sim.enabled (Sim.world false)).2 =
    calls (Sim.world false) ++
    [CallNew {| FluentHost := Host Sim.enabled;
                FluentPort := Port Sim.enabled |}].
Proof.
  split; [reflexivity|].
  apply (New_enabled_dials_once Sim.env Sim.enabled (Sim.world false)).
  reflexivity.
Defined.

Lemma New_error_origin_witness :
  (New Sim.env Sim.enabled (Sim.world false)).1.2 =
    Some (Errorf "connection refused") /\
  ((Enabled Sim.enabled = false /\
    Errorf "connection refused" = Errorf "middleware disabled") \/
   (Enabled Sim.enabled = true /\
    (fluent_New Sim.env
       {| FluentHost := Host Sim.enabled; FluentPort := Port Sim.enabled |}
       (ext (Sim.world false))).1 = inr (Errorf "connection refused"))).
Proof.
  split; [reflexivity|].
  apply (New_error_origin Sim.env Sim.enabled (Sim.world false)
           (Errorf "connection refused")).
  reflexivity.
Defined.

Lemma New_tag_used_witness :
  (New Sim.env Sim.enabled (Sim.world true)).1.1 = Some Sim.logger /\
  (exists data,
     posted (calls (Logger_Logger Sim.env Sim.logger Sim.orders
                      Sim.post_orders (Sim.world true)).2) =
       posted (calls (Sim.orders Sim.post_orders (Sim.world true)).2) ++
       [(Tag Sim.enabled, data)]) /\
  (exists data,
     posted (calls (Logger_PanicLogger Sim.env Sim.logger Sim.orders
                      Sim.post_orders (Sim.world true)).2) =
       posted (calls (Sim.orders Sim.post_orders (Sim.world true)).2) ++
       (if bool_decide
             (StatusCode (Sim.orders Sim.post_orders (Sim.world true)).1.2 =
              StatusInternalServerError)
        then [(Tag Sim.enabled +:+ ".panic", data)]
        else [])).
Proof.
  split; [reflexivity|].
  apply (New_tag_used Sim.env Sim.enabled (Sim.world true) Sim.logger
           Sim.orders Sim.post_orders (Sim.world true)).
  reflexivity.
Defined.

Lemma send_success_silent_witness :
  (Logger_Logger Sim.env Sim.logger = Logger_Logger Sim.env Sim.logger \/
   Logger_Logger Sim.env Sim.logger = Logger_PanicLogger Sim.env Sim.logger) /\
  calls (Logger_Logger Sim.env Sim.logger Sim.health Sim.get_health
           (Sim.world true)).2 =
    calls (Sim.health Sim.get_health (Sim.world true)).2 ++
    CallPost "app" Sim.health_record None :: [] /\
  (Logger_Logger Sim.env Sim.logger Sim.health Sim.get_health
     (Sim.world true)).1 =
    (Sim.health Sim.get_health (Sim.world true)).1 /\
  @nil Call = [].
Proof.
  split; [left; reflexivity|].
  split; [vm_compute; reflexivity|].
  apply (send_success_silent Sim.env Sim.logger
           (Logger_Logger Sim.env Sim.logger) Sim.health Sim.get_health
           (Sim.world true) "app" Sim.health_record []).
  - left. reflexivity.
  - vm_compute. reflexivity.
Defined.

Lemma PanicLogger_transparent_witness :
  StatusCode (Sim.unavailable Sim.post_orders (Sim.world true)).1.2 <>
    StatusInternalServerError /\
  Logger_PanicLogger Sim.env Sim.logger Sim.unavailable Sim.post_orders
    (Sim.world true) =
  Sim.unavailable Sim.post_orders (Sim.world true).
Proof.
  split; [vm_compute; discriminate|].
  apply (PanicLogger_transparent Sim.env Sim.logger Sim.unavailable
           Sim.post_orders (Sim.world true)).
  vm_compute. discriminate.
Defined.

Lemma PanicLogger_error_record_witness :
  StatusCode (Sim.crashed Sim.post_orders (Sim.world true)).1.2 =
    StatusInternalServerError /\
  (Sim.crashed Sim.post_orders (Sim.world true)).1.1 =
    Some (Recovered "index out of range") /\
  exists data,
    posted (calls (Logger_PanicLogger Sim.env Sim.logger Sim.crashed
                     Sim.post_orders (Sim.world true)).2) =
      posted (calls (Sim.crashed Sim.post_orders (Sim.world true)).2) ++
      [(tag Sim.logger +:+ ".panic", data)] /\
    dom data = panicKeys ∪ {[ "error"; "stacktrace" ]} /\
    data !! "method" =
      Some (VString
              (Method (Sim.crashed Sim.post_orders (Sim.world true)).1.2)) /\
    data !! "path" =
      Some (VString
              (Path (Sim.crashed Sim.post_orders (Sim.world true)).1.2)) /\
    data !! "client_ip" =
      Some (VString (IP (Sim.crashed Sim.post_orders (Sim.world true)).1.2)) /\
    data !! "user_agent" =
      Some (VString
              (Get (Sim.crashed Sim.post_orders (Sim.world true)).1.2
                 "User-Agent")) /\
    data !! "error" =
      Some (VString
              (tracerr_SprintSource Sim.env (Recovered "index out of range")
                 (ext (Sim.crashed Sim.post_orders (Sim.world true)).2)).1) /\
    data !! "stacktrace" =
      Some (VString
              (debug_Stack Sim.env
                 (tracerr_SprintSource Sim.env
                    (Recovered "index out of range")
                    (ext (Sim.crashed Sim.post_orders (Sim.world true)).2)).2)).
Proof.
  split; [reflexivity|]. split; [reflexivity|].
  apply (PanicLogger_error_record Sim.env Sim.logger Sim.crashed
           Sim.post_orders (Sim.world true) (Recovered "index out of range"));
    reflexivity.
Defined.

Lemma Logger_latency_truncates_witness :
  0 <= 1000 <= 401000 /\
  401000 <= time.maxDuration /\
  exists ms,
    last_latency_ms
      (calls (Logger_Logger Sim.env Sim.logger (Sim.answer 400000 200 [] None)
                Sim.get_health (Sim.world true)).2) = Some (VInt64 ms) /\
    ms * 1000000 <= 401000 - 1000 < ms * 1000000 + 1000000 /\
    (401000 - 1000 < 1000000 -> ms = 0).
Proof.
  split; [lia|]. split; [vm_compute; discriminate|].
  apply (Logger_latency_truncates Sim.env Sim.logger
           (Sim.answer 400000 200 [] None) Sim.get_health (Sim.world true)
           1000 401000).
  - reflexivity.
  - reflexivity.
  - lia.
  - vm_compute. discriminate.
Defined.

Lemma Logger_latency_bounded_witness :
  mono_now Sim.env (ext (Sim.world true)) <=
    mono_now Sim.env (ext (Sim.health Sim.get_health (Sim.world true)).2) /\
  exists ms,
    last_latency_ms
      (calls (Logger_Logger Sim.env Sim.logger Sim.health Sim.get_health
                (Sim.world true)).2) = Some (VInt64 ms) /\
    0 <= ms <= 9223372036854.
Proof.
  split; [vm_compute; discriminate|].
  apply (Logger_latency_bounded Sim.env Sim.logger Sim.health Sim.get_health
           (Sim.world true)).
  vm_compute. discriminate.
Defined.
